(** * Hero CTA heuristic rule (HeroCTARule): model and verified properties

    Shallow embedding of the rule class [HeroCTARule] and of the domain
    types it uses (types/index.ts).  Two views of [analyze] are given:

    - the typed view, on pages that inhabit the TypeScript type [Page];
    - the run-time view ([Dyn]), where [page.metrics] is an arbitrary
    JavaScript value and a property read on [undefined] throws.

    Both are transcriptions of the same method body; [analyze_typed]
    relates them. *)

From Stdlib Require Import ZArith QArith Qround Bool List String Ascii Lia.
From Stdlib Require Import DecimalString DecimalPos DecimalZ.
Import ListNotations.

Set Warnings "-register-all".

Local Open Scope string_scope.
Local Open Scope Z_scope.

(* ================================================================= *)
(** ** JavaScript numbers *)

(** A JavaScript [number] is an IEEE-754 binary64.  Every finite double is
    a rational, so finite values are carried as [Q]; the two zeros are not
    distinguished (no operation used by the rule tells them apart). *)
Inductive number : Type :=
| NaN
| Infinity (negative : bool)
| Finite (q : Q).

Definition of_Z (z : Z) : number := Finite (inject_Z z).
Definition of_nat (n : nat) : number := of_Z (Z.of_nat n).

(** [a <= b] on numbers: false as soon as an operand is NaN. *)
Definition number_leb (a b : number) : bool :=
  match a, b with
  | NaN, _ | _, NaN => false
  | Infinity true, _ => true
  | _, Infinity false => true
  | Finite p, Finite q => Qle_bool p q
  | Infinity false, _ => false
  | _, Infinity true => false
  end.

(** [a >= b]. *)
Definition number_geb (a b : number) : bool := number_leb b a.

(** [a === b] on numbers. *)
Definition number_eqb (a b : number) : bool :=
  match a, b with
  | Finite p, Finite q => Qeq_bool p q
  | Infinity s, Infinity t => Bool.eqb s t
  | _, _ => false
  end.

(** Mathematical reading of a lower bound [m <= x], for a rational [m]:
    [x] is a real number (or +Infinity) that is at least [m]. *)
Definition at_least (m : Q) (x : number) : Prop :=
  match x with
  | Finite q => (m <= q)%Q
  | Infinity negative => negative = false
  | NaN => False
  end.

(** *** binary64 rounding, as far as the rule needs it

    Positive values in the normal range only: the significand has 53 bits
    and rounding is to nearest, ties to even. *)

Definition round_half_even (q : Q) : Z :=
  let f := Qfloor q in
  match Qcompare (q - inject_Z f) (1 # 2) with
  | Lt => f
  | Gt => f + 1
  | Eq => if Z.even f then f else f + 1
  end.

(** The exponent [e] with [2^52 <= q / 2^e < 2^53]. *)
Definition binary64_exponent (q : Q) : Z :=
  let e0 := Z.log2 (Qnum q) - Z.log2 (Zpos (Qden q)) - 52 in
  if Qle_bool (Qpower 2 (e0 + 52)) q then e0 else e0 - 1.

Definition round_binary64 (q : Q) : Q :=
  if Qle_bool q 0 then 0%Q
  else
    let e := binary64_exponent q in
    Qred (inject_Z (round_half_even (q / Qpower 2 e)) * Qpower 2 e).

(** [a * b] on doubles: the exact product, rounded. *)
Definition binary64_mul (a b : Q) : Q := round_binary64 (a * b).

(** [Math.floor] of a finite double. *)
Definition Math_floor (q : Q) : Z := Qfloor q.

(** Decimal rendering of an integer-valued number inside a template
    literal (as for [Date.now()]). *)
Definition string_of_Z (z : Z) : string := NilZero.string_of_int (Z.to_int z).

(* ================================================================= *)
(** ** JavaScript values *)

(** Values that crawled metrics and finding evidence are made of.  An
    object literal keeps its properties in insertion order. *)
Inductive value : Type :=
| VUndefined
| VNull
| VBool (b : bool)
| VNumber (n : number)
| VString (s : string)
| VArray (items : list value)
| VObject (props : list (string * value)).

(** [Record<string, any>] *)
Definition object : Type := list (string * value).

(* ================================================================= *)
(** ** Domain types (types/index.ts) *)

Module Position.
Record t := mk { top : number; left : number }.
End Position.

Module Size.
Record t := mk { width : number; height : number }.
End Size.

Module CTAButton.
Record t := mk {
  text : string;
  selector : string;
  position : Position.t;
  size : Size.t;
  prominent : bool
}.
End CTAButton.

Module AboveFold.
Record t := mk { ctaButtons : list CTAButton.t; height : number }.
End AboveFold.

Module Performance.
Record t := mk { loadTime : number }.
End Performance.

Module PageMetrics.
Record t := mk { aboveFold : AboveFold.t; performance : Performance.t }.
End PageMetrics.

Inductive Severity : Type := high | med | low.

(** [Finding].  The optional [recommendation] and [page] members are left
    out: [createFinding] never sets them. *)
Module Finding.
Record t := mk {
  id : string;
  pageId : string;
  ruleId : string;
  severity : Severity;
  evidence : object
}.
End Finding.

(** [Page].  [type] is kept as the string it is at run time: the rule
    itself receives it as [pageType: string]. *)
Module Page.
Record t := mk {
  id : string;
  crawlId : string;
  url : string;
  type : string;
  metrics : PageMetrics.t;
  findings : list Finding.t;
  crawl : value
}.
End Page.

(** [HeuristicResult]; an optional member that is absent is [None], and
    so is [finding: null]. *)
Module HeuristicResult.
Record t := mk {
  passed : bool;
  score : Z;
  finding : option Finding.t;
  skipped : option bool;
  reason : option string
}.
End HeuristicResult.

(** [BaseHeuristicRule]: what every rule object offers.  [analyze] takes
    the reading of the clock ([Date.now()]) at the call as its first
    argument. *)
Record BaseHeuristicRule := {
  ruleId : string;
  maxScore : Z;
  name : string;
  description : string;
  analyze : Z -> Page.t -> HeuristicResult.t
}.

(** How metrics appear as JavaScript values (object literals of the
    schema, properties in schema order). *)
Definition value_of_size (s : Size.t) : value :=
  VObject [("width", VNumber (Size.width s)); ("height", VNumber (Size.height s))].

Definition value_of_position (p : Position.t) : value :=
  VObject [("top", VNumber (Position.top p)); ("left", VNumber (Position.left p))].

Definition value_of_cta (c : CTAButton.t) : value :=
  VObject [("text", VString (CTAButton.text c));
           ("selector", VString (CTAButton.selector c));
           ("position", value_of_position (CTAButton.position c));
           ("size", value_of_size (CTAButton.size c));
           ("prominent", VBool (CTAButton.prominent c))].

Definition value_of_metrics (m : PageMetrics.t) : value :=
  VObject
    [("aboveFold",
      VObject [("ctaButtons",
                VArray (map value_of_cta (AboveFold.ctaButtons (PageMetrics.aboveFold m))));
               ("height", VNumber (AboveFold.height (PageMetrics.aboveFold m)))]);
     ("performance",
      VObject [("loadTime",
                VNumber (Performance.loadTime (PageMetrics.performance m)))])].

(* ================================================================= *)
(** ** The rule, on typed pages *)

Module HeroCTARule.

(** Rule configuration constants *)
Definition APPLICABLE_PAGE_TYPES : list string := ["home"; "product"].
(** the literal [0.47], i.e. the double nearest to 47/100 *)
Definition WEAK_CTA_SCORE_RATIO : Q := round_binary64 (47 # 100).
Definition MIN_PROMINENT_WIDTH : Z := 120.
Definition MIN_PROMINENT_HEIGHT : Z := 35.

(** Rule metadata *)
Definition ruleId : string := "hero_cta_detection".
Definition maxScore : Z := 15.
Definition name : string := "Hero CTA Presence".
Definition description : string :=
  "Ensures prominent call-to-action buttons are visible above the fold".

(** [APPLICABLE_PAGE_TYPES.includes(pageType)] *)
Definition isApplicablePageType (pageType : string) : bool :=
  existsb (String.eqb pageType) APPLICABLE_PAGE_TYPES.

Definition isProminentCTA (cta : CTAButton.t) : bool :=
  number_geb (Size.width (CTAButton.size cta)) (of_Z MIN_PROMINENT_WIDTH)
  && number_geb (Size.height (CTAButton.size cta)) (of_Z MIN_PROMINENT_HEIGHT)
  && CTAButton.prominent cta.

Definition createFinding (now : Z) (page : Page.t) (ruleId : string)
    (severity : Severity) (evidence : object) : Finding.t :=
  {| Finding.id := ruleId ++ "-" ++ Page.id page ++ "-" ++ string_of_Z now;
     Finding.pageId := Page.id page;
     Finding.ruleId := ruleId;
     Finding.severity := severity;
     Finding.evidence := evidence |}.

Definition createSkippedResult : HeuristicResult.t :=
  {| HeuristicResult.passed := false;
     HeuristicResult.score := 0;
     HeuristicResult.finding := None;
     HeuristicResult.skipped := Some true;
     HeuristicResult.reason := Some "Rule only applies to home and product pages" |}.

Definition createMissingCTAResult (now : Z) (page : Page.t) : HeuristicResult.t :=
  {| HeuristicResult.passed := false;
     HeuristicResult.score := 0;
     HeuristicResult.finding :=
       Some (createFinding now page "hero_cta_missing" high
               [("ctaCount", VNumber (of_Z 0));
                ("pageType", VString (Page.type page));
                ("aboveFoldHeight",
                 VNumber (AboveFold.height (PageMetrics.aboveFold (Page.metrics page))))]);
     HeuristicResult.skipped := None;
     HeuristicResult.reason := None |}.

Definition createSuccessResult : HeuristicResult.t :=
  {| HeuristicResult.passed := true;
     HeuristicResult.score := maxScore;
     HeuristicResult.finding := None;
     HeuristicResult.skipped := None;
     HeuristicResult.reason := None |}.

Definition createWeakCTAResult (now : Z) (page : Page.t)
    (ctaButtons : list CTAButton.t) : HeuristicResult.t :=
  {| HeuristicResult.passed := false;
     HeuristicResult.score :=
       Math_floor (binary64_mul (inject_Z maxScore) WEAK_CTA_SCORE_RATIO);
     HeuristicResult.finding :=
       Some (createFinding now page "hero_cta_weak" med
               [("ctaCount", VNumber (of_nat (List.length ctaButtons)));
                ("prominentCount", VNumber (of_Z 0));
                ("weakCTAs",
                 VArray (map (fun cta =>
                                VObject [("text", VString (CTAButton.text cta));
                                         ("size", value_of_size (CTAButton.size cta));
                                         ("prominent", VBool (CTAButton.prominent cta))])
                             ctaButtons))]);
     HeuristicResult.skipped := None;
     HeuristicResult.reason := None |}.

Definition analyze (now : Z) (page : Page.t) : HeuristicResult.t :=
  if negb (isApplicablePageType (Page.type page)) then createSkippedResult
  else
    let ctaButtons := AboveFold.ctaButtons (PageMetrics.aboveFold (Page.metrics page)) in
    if (List.length ctaButtons =? 0)%nat then createMissingCTAResult now page
    else
      let prominentCTAs := filter (fun cta => CTAButton.prominent cta) ctaButtons in
      if (0 <? List.length prominentCTAs)%nat then createSuccessResult
      else createWeakCTAResult now page ctaButtons.

End HeroCTARule.

(** [new HeroCTARule()] *)
Definition heroCTARule : BaseHeuristicRule :=
  {| ruleId := HeroCTARule.ruleId;
     maxScore := HeroCTARule.maxScore;
     name := HeroCTARule.name;
     description := HeroCTARule.description;
     analyze := HeroCTARule.analyze |}.

(* ================================================================= *)
(** ** The rule at run time

    TypeScript types are erased: [page.metrics] is whatever value the
    crawler attached.  Reading a property of [undefined] or [null] throws
    a TypeError, reading a property an object does not have gives
    [undefined], and calling something that is not a function throws. *)

Module Dyn.

Inductive exn : Type :=
| CannotReadProperty (key : string)   (* TypeError: Cannot read properties of undefined *)
| NotAFunction (key : string).        (* TypeError: x.key is not a function *)

Inductive completion (A : Type) : Type :=
| Return (a : A)
| Throw (e : exn).
Arguments Return {A} a.
Arguments Throw {A} e.

Definition bind {A B : Type} (c : completion A) (k : A -> completion B) : completion B :=
  match c with
  | Return a => k a
  | Throw e => Throw e
  end.

Notation "x <- c ;; k" := (bind c (fun x => k))
  (at level 61, c at next level, right associativity).

Fixpoint lookup (key : string) (props : list (string * value)) : value :=
  match props with
  | [] => VUndefined
  | (k, v) :: rest => if String.eqb key k then v else lookup key rest
  end.

(** [v.key], for the data values of this model (own properties, and the
    [length] of arrays and strings). *)
Definition get (v : value) (key : string) : completion value :=
  match v with
  | VUndefined | VNull => Throw (CannotReadProperty key)
  | VObject props => Return (lookup key props)
  | VArray items =>
      Return (if String.eqb key "length" then VNumber (of_nat (List.length items))
              else VUndefined)
  | VString s =>   (* the length of an ASCII string *)
      Return (if String.eqb key "length" then VNumber (of_nat (String.length s))
              else VUndefined)
  | VBool _ | VNumber _ => Return VUndefined
  end.

(** [undefined] and [null]: the values without properties *)
Definition nullish (v : value) : bool :=
  match v with
  | VUndefined | VNull => true
  | _ => false
  end.

(** ToBoolean *)
Definition truthy (v : value) : bool :=
  match v with
  | VUndefined | VNull => false
  | VBool b => b
  | VNumber NaN => false
  | VNumber (Finite q) => negb (Qeq_bool q 0)
  | VNumber (Infinity _) => true
  | VString s => negb (String.eqb s "")
  | VArray _ | VObject _ => true
  end.

(** [v === n] for a number [n] *)
Definition strict_equals_number (v : value) (n : number) : bool :=
  match v with
  | VNumber m => number_eqb m n
  | _ => false
  end.

Fixpoint filterM (f : value -> completion bool) (items : list value)
    : completion (list value) :=
  match items with
  | [] => Return []
  | x :: rest =>
      keep <- f x ;;
      kept <- filterM f rest ;;
      Return (if keep then x :: kept else kept)
  end.

Fixpoint mapM (f : value -> completion value) (items : list value)
    : completion (list value) :=
  match items with
  | [] => Return []
  | x :: rest =>
      y <- f x ;;
      ys <- mapM f rest ;;
      Return (y :: ys)
  end.

(** [v.filter(f)]: only arrays have the method. *)
Definition call_filter (v : value) (f : value -> completion bool)
    : completion (list value) :=
  match v with
  | VArray items => filterM f items
  | VUndefined | VNull => Throw (CannotReadProperty "filter")
  | _ => Throw (NotAFunction "filter")
  end.

(** [v.map(f)] *)
Definition call_map (v : value) (f : value -> completion value)
    : completion (list value) :=
  match v with
  | VArray items => mapM f items
  | VUndefined | VNull => Throw (CannotReadProperty "map")
  | _ => Throw (NotAFunction "map")
  end.

(** The members of a page that the rule reads. *)
Module RawPage.
Record t := mk { id : string; type : string; metrics : value }.
End RawPage.

Definition createFinding (now : Z) (page : RawPage.t) (ruleId : string)
    (severity : Severity) (evidence : object) : Finding.t :=
  {| Finding.id := ruleId ++ "-" ++ RawPage.id page ++ "-" ++ string_of_Z now;
     Finding.pageId := RawPage.id page;
     Finding.ruleId := ruleId;
     Finding.severity := severity;
     Finding.evidence := evidence |}.

Definition createMissingCTAResult (now : Z) (page : RawPage.t)
    : completion HeuristicResult.t :=
  aboveFold <- get (RawPage.metrics page) "aboveFold" ;;
  height <- get aboveFold "height" ;;
  Return
    {| HeuristicResult.passed := false;
       HeuristicResult.score := 0;
       HeuristicResult.finding :=
         Some (createFinding now page "hero_cta_missing" high
                 [("ctaCount", VNumber (of_Z 0));
                  ("pageType", VString (RawPage.type page));
                  ("aboveFoldHeight", height)]);
       HeuristicResult.skipped := None;
       HeuristicResult.reason := None |}.

Definition createWeakCTAResult (now : Z) (page : RawPage.t) (ctaButtons : value)
    : completion HeuristicResult.t :=
  ctaCount <- get ctaButtons "length" ;;
  weakCTAs <- call_map ctaButtons (fun cta =>
                text <- get cta "text" ;;
                size <- get cta "size" ;;
                prominent <- get cta "prominent" ;;
                Return (VObject [("text", text); ("size", size);
                                 ("prominent", prominent)])) ;;
  Return
    {| HeuristicResult.passed := false;
       HeuristicResult.score :=
         Math_floor (binary64_mul (inject_Z HeroCTARule.maxScore)
                                  HeroCTARule.WEAK_CTA_SCORE_RATIO);
       HeuristicResult.finding :=
         Some (createFinding now page "hero_cta_weak" med
                 [("ctaCount", ctaCount);
                  ("prominentCount", VNumber (of_Z 0));
                  ("weakCTAs", VArray weakCTAs)]);
       HeuristicResult.skipped := None;
       HeuristicResult.reason := None |}.

Definition analyze (now : Z) (page : RawPage.t) : completion HeuristicResult.t :=
  if negb (HeroCTARule.isApplicablePageType (RawPage.type page))
  then Return HeroCTARule.createSkippedResult
  else
    aboveFold <- get (RawPage.metrics page) "aboveFold" ;;
    ctaButtons <- get aboveFold "ctaButtons" ;;
    len <- get ctaButtons "length" ;;
    if strict_equals_number len (of_Z 0) then createMissingCTAResult now page
    else
      prominentCTAs <- call_filter ctaButtons (fun cta =>
                         prominent <- get cta "prominent" ;;
                         Return (truthy prominent)) ;;
      if (0 <? List.length prominentCTAs)%nat then Return HeroCTARule.createSuccessResult
      else createWeakCTAResult now page ctaButtons.

(** A typed page, as the object the rule receives. *)
Definition of_page (p : Page.t) : RawPage.t :=
  {| RawPage.id := Page.id p;
     RawPage.type := Page.type p;
     RawPage.metrics := value_of_metrics (Page.metrics p) |}.

End Dyn.

(* ================================================================= *)
(** ** Sample inputs (the pages and buttons of the rule's test-suite,
       and variations of them) *)

Definition px (w h : Z) : Size.t := {| Size.width := of_Z w; Size.height := of_Z h |}.

(** "Shop Now", 200x50, flagged prominent *)
Definition prominentCTA : CTAButton.t :=
  {| CTAButton.text := "Shop Now";
     CTAButton.selector := ".hero-cta";
     CTAButton.position := {| Position.top := of_Z 300; Position.left := of_Z 400 |};
     CTAButton.size := px 200 50;
     CTAButton.prominent := true |}.

(** "Learn more", 80x20, not flagged *)
Definition smallCTA : CTAButton.t :=
  {| CTAButton.text := "Learn more";
     CTAButton.selector := ".small-link";
     CTAButton.position := {| Position.top := of_Z 600; Position.left := of_Z 100 |};
     CTAButton.size := px 80 20;
     CTAButton.prominent := false |}.

(** Large, but not flagged by the extractor *)
Definition largeUnflaggedCTA : CTAButton.t :=
  {| CTAButton.text := "Shop Now";
     CTAButton.selector := ".hero-cta";
     CTAButton.position := {| Position.top := of_Z 300; Position.left := of_Z 400 |};
     CTAButton.size := px 200 50;
     CTAButton.prominent := false |}.

(** Flagged by the extractor, but below the geometric minimum *)
Definition smallFlaggedCTA : CTAButton.t :=
  {| CTAButton.text := "Learn more";
     CTAButton.selector := ".small-link";
     CTAButton.position := {| Position.top := of_Z 600; Position.left := of_Z 100 |};
     CTAButton.size := px 80 20;
     CTAButton.prominent := true |}.

Definition testMetrics (ctas : list CTAButton.t) : PageMetrics.t :=
  {| PageMetrics.aboveFold :=
       {| AboveFold.ctaButtons := ctas; AboveFold.height := of_Z 800 |};
     PageMetrics.performance := {| Performance.loadTime := of_Z 1000 |} |}.

Definition testPage (id type : string) (ctas : list CTAButton.t) : Page.t :=
  {| Page.id := id;
     Page.crawlId := "test-crawl-1";
     Page.url := "https://test-store.myshopify.com";
     Page.type := type;
     Page.metrics := testMetrics ctas;
     Page.findings := [];
     Page.crawl := VNull |}.

(** A home page whose metrics object has no [aboveFold] member *)
Definition pageWithoutAboveFold : Dyn.RawPage.t :=
  {| Dyn.RawPage.id := "test-page-5";
     Dyn.RawPage.type := "home";
     Dyn.RawPage.metrics :=
       VObject [("performance", VObject [("loadTime", VNumber (of_Z 1000))])] |}.

(** A home page whose [aboveFold] has a height but no [ctaButtons] member *)
Definition pageWithoutCtaButtons : Dyn.RawPage.t :=
  {| Dyn.RawPage.id := "test-page-6";
     Dyn.RawPage.type := "home";
     Dyn.RawPage.metrics :=
       VObject [("aboveFold", VObject [("height", VNumber (of_Z 800))])] |}.

(** A product page with one button that has a text and nothing else, and
    no [height] and no [performance] *)
Definition pageWithBareButton : Dyn.RawPage.t :=
  {| Dyn.RawPage.id := "test-page-7";
     Dyn.RawPage.type := "product";
     Dyn.RawPage.metrics :=
       VObject [("aboveFold",
                 VObject [("ctaButtons", VArray [VObject [("text", VString "Buy")]])])] |}.

(** Whether a button, as a run-time value, carries a truthy [prominent]
    member; a button without the member does not. *)
Definition flagged (cta : value) : bool :=
  match Dyn.get cta "prominent" with
  | Dyn.Return prominent => Dyn.truthy prominent
  | Dyn.Throw _ => false
  end.

(** What a finding says apart from its identity. *)
Definition findingContent (f : Finding.t) : string * string * Severity * object :=
  (Finding.ruleId f, Finding.pageId f, Finding.severity f, Finding.evidence f).

(** The part of it that does not name the page. *)
Definition findingVerdict (f : Finding.t) : string * Severity * object :=
  (Finding.ruleId f, Finding.severity f, Finding.evidence f).

(** The buttons found above the fold of a page. *)
Definition buttons (page : Page.t) : list CTAButton.t :=
  AboveFold.ctaButtons (PageMetrics.aboveFold (Page.metrics page)).

(** A summary of the decision of [analyze] in terms of the page type and
    of the extractor's flags alone: passed, score, and the kind of finding
    (its ruleId and severity). *)
Definition verdict (type : string) (flags : list bool)
    : bool * Z * option (string * Severity) :=
  if negb (HeroCTARule.isApplicablePageType type) then (false, 0, None)
  else
    match flags with
    | [] => (false, 0, Some ("hero_cta_missing", high))
    | _ :: _ =>
        if existsb (fun flag => flag) flags then (true, 15, None)
        else (false, 7, Some ("hero_cta_weak", med))
    end.


(** The separator of the parts of a finding id. *)
Definition dash : ascii := "-"%char.

(** Whether a string contains no [dash]. *)
Fixpoint dashFree (s : string) : bool :=
  match s with
  | EmptyString => true
  | String a rest => negb (Ascii.eqb a dash) && dashFree rest
  end.

(** The results that [analyze] can return at run time. *)
Inductive returned (now : Z) (page : Dyn.RawPage.t) : HeuristicResult.t -> Prop :=
| ReturnedSkipped : returned now page HeroCTARule.createSkippedResult
| ReturnedSuccess : returned now page HeroCTARule.createSuccessResult
| ReturnedMissing (height : value) :
    returned now page
      {| HeuristicResult.passed := false;
         HeuristicResult.score := 0;
         HeuristicResult.finding :=
           Some (Dyn.createFinding now page "hero_cta_missing" high
                   [("ctaCount", VNumber (of_Z 0));
                    ("pageType", VString (Dyn.RawPage.type page));
                    ("aboveFoldHeight", height)]);
         HeuristicResult.skipped := None;
         HeuristicResult.reason := None |}
| ReturnedWeak (ctaCount : value) (weakCTAs : list value) :
    returned now page
      {| HeuristicResult.passed := false;
         HeuristicResult.score := 7;
         HeuristicResult.finding :=
           Some (Dyn.createFinding now page "hero_cta_weak" med
                   [("ctaCount", ctaCount);
                    ("prominentCount", VNumber (of_Z 0));
                    ("weakCTAs", VArray weakCTAs)]);
         HeuristicResult.skipped := None;
         HeuristicResult.reason := None |}.

(* ================================================================= *)
(** ** Numbers *)

Lemma WEAK_CTA_SCORE_RATIO_binary64 :
  HeroCTARule.WEAK_CTA_SCORE_RATIO = (2116691824864133 # 4503599627370496)%Q.
Proof. vm_compute. reflexivity. Qed.

Lemma weak_product_binary64 :
  binary64_mul (inject_Z HeroCTARule.maxScore) HeroCTARule.WEAK_CTA_SCORE_RATIO
  = (7937594343240499 # 1125899906842624)%Q.
Proof. vm_compute. reflexivity. Qed.

Lemma weak_score :
  Math_floor (binary64_mul (inject_Z HeroCTARule.maxScore) HeroCTARule.WEAK_CTA_SCORE_RATIO) = 7.
Proof. rewrite weak_product_binary64. vm_compute. reflexivity. Qed.

Lemma number_geb_at_least (x : number) (m : Z) :
  number_geb x (of_Z m) = true <-> at_least (inject_Z m) x.
Proof.
  unfold number_geb, of_Z.
  destruct x as [ | [ | ] | q ]; simpl.
  - split; [discriminate | contradiction].
  - split; [discriminate | discriminate].
  - split; reflexivity.
  - apply Qle_bool_iff.
Qed.

Lemma of_nat_is_zero (n : nat) : number_eqb (of_nat n) (of_Z 0) = (n =? 0)%nat.
Proof.
  unfold of_nat, of_Z, number_eqb, Qeq_bool, inject_Z. simpl.
  destruct n as [ | n ]; reflexivity.
Qed.

(* ================================================================= *)
(** ** The branches of [analyze] *)

Lemma isApplicablePageType_iff (t : string) :
  HeroCTARule.isApplicablePageType t = true <-> t = "home" \/ t = "product".
Proof.
  unfold HeroCTARule.isApplicablePageType, HeroCTARule.APPLICABLE_PAGE_TYPES. simpl.
  rewrite !orb_true_iff, !String.eqb_eq. intuition discriminate.
Qed.

Lemma some_prominent (ctas : list CTAButton.t) :
  (0 <? List.length (filter (fun cta => CTAButton.prominent cta) ctas))%nat
  = existsb CTAButton.prominent ctas.
Proof.
  induction ctas as [ | c rest IH ]; simpl; [reflexivity | ].
  destruct (CTAButton.prominent c); simpl; [reflexivity | exact IH].
Qed.

Lemma analyze_not_applicable (now : Z) (page : Page.t) :
  HeroCTARule.isApplicablePageType (Page.type page) = false ->
  HeroCTARule.analyze now page = HeroCTARule.createSkippedResult.
Proof. intros H. unfold HeroCTARule.analyze. rewrite H. reflexivity. Qed.

Lemma analyze_no_cta (now : Z) (page : Page.t) :
  HeroCTARule.isApplicablePageType (Page.type page) = true ->
  AboveFold.ctaButtons (PageMetrics.aboveFold (Page.metrics page)) = [] ->
  HeroCTARule.analyze now page = HeroCTARule.createMissingCTAResult now page.
Proof. intros H E. unfold HeroCTARule.analyze. rewrite H, E. reflexivity. Qed.

Lemma analyze_flagged (now : Z) (page : Page.t) :
  HeroCTARule.isApplicablePageType (Page.type page) = true ->
  existsb CTAButton.prominent
    (AboveFold.ctaButtons (PageMetrics.aboveFold (Page.metrics page))) = true ->
  HeroCTARule.analyze now page = HeroCTARule.createSuccessResult.
Proof.
  intros H E. unfold HeroCTARule.analyze. rewrite H, some_prominent, E. simpl.
  destruct (AboveFold.ctaButtons _); [discriminate E | reflexivity].
Qed.

Lemma analyze_unflagged (now : Z) (page : Page.t) :
  HeroCTARule.isApplicablePageType (Page.type page) = true ->
  AboveFold.ctaButtons (PageMetrics.aboveFold (Page.metrics page)) <> [] ->
  existsb CTAButton.prominent
    (AboveFold.ctaButtons (PageMetrics.aboveFold (Page.metrics page))) = false ->
  HeroCTARule.analyze now page
  = HeroCTARule.createWeakCTAResult now page
      (AboveFold.ctaButtons (PageMetrics.aboveFold (Page.metrics page))).
Proof.
  intros H N E. unfold HeroCTARule.analyze. rewrite H, some_prominent, E. simpl.
  destruct (AboveFold.ctaButtons _); [contradiction | reflexivity].
Qed.

(** The four outcomes, each with the condition under which it is taken. *)
Inductive outcome (now : Z) (page : Page.t) : HeuristicResult.t -> Prop :=
| Skipped :
    HeroCTARule.isApplicablePageType (Page.type page) = false ->
    outcome now page HeroCTARule.createSkippedResult
| Missing :
    HeroCTARule.isApplicablePageType (Page.type page) = true ->
    AboveFold.ctaButtons (PageMetrics.aboveFold (Page.metrics page)) = [] ->
    outcome now page (HeroCTARule.createMissingCTAResult now page)
| Success :
    HeroCTARule.isApplicablePageType (Page.type page) = true ->
    existsb CTAButton.prominent
      (AboveFold.ctaButtons (PageMetrics.aboveFold (Page.metrics page))) = true ->
    outcome now page HeroCTARule.createSuccessResult
| Weak :
    HeroCTARule.isApplicablePageType (Page.type page) = true ->
    AboveFold.ctaButtons (PageMetrics.aboveFold (Page.metrics page)) <> [] ->
    existsb CTAButton.prominent
      (AboveFold.ctaButtons (PageMetrics.aboveFold (Page.metrics page))) = false ->
    outcome now page
      (HeroCTARule.createWeakCTAResult now page
         (AboveFold.ctaButtons (PageMetrics.aboveFold (Page.metrics page)))).

Lemma analyze_outcome (now : Z) (page : Page.t) :
  outcome now page (HeroCTARule.analyze now page).
Proof.
  destruct (HeroCTARule.isApplicablePageType (Page.type page)) eqn:A.
  - destruct (AboveFold.ctaButtons (PageMetrics.aboveFold (Page.metrics page)))
      as [ | c rest ] eqn:L.
    + rewrite analyze_no_cta by assumption. now constructor.
    + assert (N : AboveFold.ctaButtons (PageMetrics.aboveFold (Page.metrics page)) <> [])
        by (rewrite L; discriminate).
      destruct (existsb CTAButton.prominent
                  (AboveFold.ctaButtons (PageMetrics.aboveFold (Page.metrics page)))) eqn:E.
      * rewrite analyze_flagged by assumption. now apply Success.
      * rewrite analyze_unflagged by assumption. now apply Weak.
  - rewrite analyze_not_applicable by assumption. now constructor.
Qed.

Lemma createWeakCTAResult_score (now : Z) (page : Page.t) (ctas : list CTAButton.t) :
  HeuristicResult.score (HeroCTARule.createWeakCTAResult now page ctas) = 7.
Proof. unfold HeroCTARule.createWeakCTAResult. cbn [HeuristicResult.score]. exact weak_score. Qed.

(** Results by their members: what [analyze] returns in each branch. *)
Ltac by_outcome now page :=
  let O := fresh "O" in
  pose proof (analyze_outcome now page) as O;
  destruct O;
  rewrite ?createWeakCTAResult_score;
  unfold HeroCTARule.createSkippedResult, HeroCTARule.createMissingCTAResult,
    HeroCTARule.createSuccessResult, HeroCTARule.createWeakCTAResult,
    HeroCTARule.maxScore;
  cbn [HeuristicResult.passed HeuristicResult.score HeuristicResult.finding
       HeuristicResult.skipped HeuristicResult.reason].

(* ================================================================= *)
(** ** The cases of the test-suite *)

Example test_missing_cta :
  HeroCTARule.analyze 1700000000000 (testPage "test-page-1" "home" [])
  = {| HeuristicResult.passed := false;
       HeuristicResult.score := 0;
       HeuristicResult.finding :=
         Some {| Finding.id := "hero_cta_missing-test-page-1-1700000000000";
                 Finding.pageId := "test-page-1";
                 Finding.ruleId := "hero_cta_missing";
                 Finding.severity := high;
                 Finding.evidence :=
                   [("ctaCount", VNumber (of_Z 0));
                    ("pageType", VString "home");
                    ("aboveFoldHeight", VNumber (of_Z 800))] |};
       HeuristicResult.skipped := None;
       HeuristicResult.reason := None |}.
Proof. reflexivity. Qed.

Example test_prominent_cta :
  HeroCTARule.analyze 1700000000000 (testPage "test-page-2" "home" [prominentCTA])
  = {| HeuristicResult.passed := true;
       HeuristicResult.score := 15;
       HeuristicResult.finding := None;
       HeuristicResult.skipped := None;
       HeuristicResult.reason := None |}.
Proof. reflexivity. Qed.

Example test_weak_cta :
  let r := HeroCTARule.analyze 1700000000000 (testPage "test-page-3" "home" [smallCTA]) in
  HeuristicResult.passed r = false
  /\ HeuristicResult.score r = 7
  /\ option_map Finding.severity (HeuristicResult.finding r) = Some med
  /\ option_map Finding.ruleId (HeuristicResult.finding r) = Some "hero_cta_weak".
Proof. cbv zeta. rewrite analyze_unflagged by (reflexivity || discriminate).
  rewrite createWeakCTAResult_score. repeat split. Qed.

Example test_collection_page :
  let r := HeroCTARule.analyze 1700000000000 (testPage "test-page-4" "collection" []) in
  HeuristicResult.skipped r = Some true
  /\ HeuristicResult.reason r = Some "Rule only applies to home and product pages".
Proof. split; reflexivity. Qed.

(* ================================================================= *)
(** ** Properties of the helper [isProminentCTA] *)

(** C9: [isProminentCTA] returns true exactly when the button carries the
    extractor's [prominent] flag and its width is at least 120 and its
    height at least 35.  A 200x50 button flagged prominent is prominent; an
    80x20 button that is not flagged is not; a 200x50 button that is not
    flagged is not either. *)
Theorem isProminentCTA_and_combination :
  (forall c : CTAButton.t,
      HeroCTARule.isProminentCTA c = true <->
      (CTAButton.prominent c = true
       /\ at_least 120 (Size.width (CTAButton.size c))
       /\ at_least 35 (Size.height (CTAButton.size c))))
  /\ HeroCTARule.isProminentCTA prominentCTA = true
  /\ HeroCTARule.isProminentCTA smallCTA = false
  /\ HeroCTARule.isProminentCTA largeUnflaggedCTA = false.
Proof.
  split; [ | repeat split; reflexivity ].
  intros c. unfold HeroCTARule.isProminentCTA.
  rewrite !andb_true_iff, !number_geb_at_least.
  unfold HeroCTARule.MIN_PROMINENT_WIDTH, HeroCTARule.MIN_PROMINENT_HEIGHT.
  tauto.
Qed.

(* ================================================================= *)
(** ** Properties of [analyze] on typed pages *)

(** C3: on a home or product page whose list of above-the-fold CTA buttons
    is empty, [analyze] returns passed=false, score=0 and a finding with
    ruleId 'hero_cta_missing', severity 'high' and the evidence
    {ctaCount: 0, pageType: page.type, aboveFoldHeight: metrics.aboveFold.height}. *)
Theorem analyze_missing_cta (now : Z) (page : Page.t) :
  Page.type page = "home" \/ Page.type page = "product" ->
  AboveFold.ctaButtons (PageMetrics.aboveFold (Page.metrics page)) = [] ->
  let r := HeroCTARule.analyze now page in
  HeuristicResult.passed r = false
  /\ HeuristicResult.score r = 0
  /\ exists f : Finding.t,
       HeuristicResult.finding r = Some f
       /\ Finding.ruleId f = "hero_cta_missing"
       /\ Finding.severity f = high
       /\ Finding.evidence f =
            [("ctaCount", VNumber (of_Z 0));
             ("pageType", VString (Page.type page));
             ("aboveFoldHeight",
              VNumber (AboveFold.height (PageMetrics.aboveFold (Page.metrics page))))].
Proof.
  intros T E r. subst r.
  rewrite analyze_no_cta by (try apply isApplicablePageType_iff; assumption).
  unfold HeroCTARule.createMissingCTAResult.
  cbn [HeuristicResult.passed HeuristicResult.score HeuristicResult.finding].
  repeat split. eexists. repeat split.
Qed.

Lemma analyze_missing_cta_witness :
  let r := HeroCTARule.analyze 1700000000000 (testPage "test-page-1" "home" []) in
  HeuristicResult.passed r = false
  /\ HeuristicResult.score r = 0
  /\ exists f : Finding.t,
       HeuristicResult.finding r = Some f
       /\ Finding.ruleId f = "hero_cta_missing"
       /\ Finding.severity f = high
       /\ Finding.evidence f =
            [("ctaCount", VNumber (of_Z 0));
             ("pageType", VString "home");
             ("aboveFoldHeight", VNumber (of_Z 800))].
Proof.
  apply (analyze_missing_cta 1700000000000 (testPage "test-page-1" "home" [])).
  - left. reflexivity.
  - reflexivity.
Defined.

(** C5: on a page whose type is neither 'home' nor 'product', [analyze]
    returns exactly {passed: false, score: 0, finding: null, skipped: true,
    reason: 'Rule only applies to home and product pages'}; it does so
    whatever the metrics are, and before reading any of them: at run time
    the same result comes back for every value of [page.metrics], also for
    [undefined], on which any property read would throw. *)
Theorem analyze_skips_other_page_types (now : Z) (type : string) :
  type <> "home" -> type <> "product" ->
  let skippedResult :=
    {| HeuristicResult.passed := false;
       HeuristicResult.score := 0;
       HeuristicResult.finding := None;
       HeuristicResult.skipped := Some true;
       HeuristicResult.reason := Some "Rule only applies to home and product pages" |} in
  (forall page : Page.t,
      Page.type page = type -> HeroCTARule.analyze now page = skippedResult)
  /\ (forall (id : string) (metrics : value),
         Dyn.analyze now {| Dyn.RawPage.id := id; Dyn.RawPage.type := type;
                            Dyn.RawPage.metrics := metrics |}
         = Dyn.Return skippedResult).
Proof.
  intros H1 H2 skippedResult.
  assert (A : HeroCTARule.isApplicablePageType type = false).
  { destruct (HeroCTARule.isApplicablePageType type) eqn:A; [ | reflexivity ].
    apply isApplicablePageType_iff in A. tauto. }
  split.
  - intros page <-. now apply analyze_not_applicable.
  - intros id metrics. unfold Dyn.analyze. simpl Dyn.RawPage.type. rewrite A. reflexivity.
Qed.

Lemma analyze_skips_other_page_types_witness :
  HeroCTARule.analyze 1700000000000 (testPage "test-page-4" "collection" [prominentCTA])
  = HeroCTARule.createSkippedResult
  /\ Dyn.analyze 1700000000000
       {| Dyn.RawPage.id := "test-page-4"; Dyn.RawPage.type := "collection";
          Dyn.RawPage.metrics := VUndefined |}
     = Dyn.Return HeroCTARule.createSkippedResult.
Proof.
  destruct (analyze_skips_other_page_types 1700000000000 "collection") as [T D].
  - discriminate.
  - discriminate.
  - split.
    + apply T. reflexivity.
    + apply D.
Defined.

(** C6: for every page, the result of [analyze] satisfies: skipped=true
    implies finding=null and score=0; passed=true implies finding=null. *)
Theorem analyze_result_invariant (now : Z) (page : Page.t) :
  let r := HeroCTARule.analyze now page in
  (HeuristicResult.skipped r = Some true ->
   HeuristicResult.finding r = None /\ HeuristicResult.score r = 0)
  /\ (HeuristicResult.passed r = true -> HeuristicResult.finding r = None).
Proof.
  cbv zeta. by_outcome now page; split; intros; try discriminate; auto.
Qed.

(** C7: the score that the rule object returns lies between 0 and the
    rule's maxScore, which is 15 for the Hero CTA rule (the one rule that
    implements [BaseHeuristicRule]). *)
Theorem analyze_score_bounds (now : Z) (page : Page.t) :
  0 <= HeuristicResult.score (analyze heroCTARule now page) <= maxScore heroCTARule
  /\ maxScore heroCTARule = 15.
Proof.
  unfold heroCTARule. cbn [analyze maxScore].
  split; [ | reflexivity ].
  by_outcome now page; lia.
Qed.

(** C10: the score of [analyze] is 0, 7 or 15; passed is true exactly when
    the score is 15; a result with passed=false has score 0 or 7; a result
    that is skipped, or that carries a finding, has passed=false. *)
Theorem analyze_three_scores (now : Z) (page : Page.t) :
  let r := HeroCTARule.analyze now page in
  (HeuristicResult.score r = 0 \/ HeuristicResult.score r = 7
   \/ HeuristicResult.score r = 15)
  /\ (HeuristicResult.passed r = true <-> HeuristicResult.score r = HeroCTARule.maxScore)
  /\ HeroCTARule.maxScore = 15
  /\ (HeuristicResult.passed r = false ->
      HeuristicResult.score r = 0 \/ HeuristicResult.score r = 7)
  /\ (HeuristicResult.skipped r = Some true \/ HeuristicResult.finding r <> None ->
      HeuristicResult.passed r = false).
Proof.
  cbv zeta. by_outcome now page; repeat split; intros;
    try discriminate; try reflexivity; try (exfalso; lia);
    try (left; reflexivity); try (right; left; reflexivity);
    try (right; reflexivity); try (right; right; reflexivity);
    try match goal with
        | H : _ \/ _ |- _ => destruct H; [discriminate | congruence]
        end.
Qed.

(** Full credit goes to the pages with a flagged button, whatever its size. *)
Lemma analyze_full_credit_iff_flagged (now : Z) (page : Page.t) :
  HeroCTARule.isApplicablePageType (Page.type page) = true ->
  (HeroCTARule.analyze now page = HeroCTARule.createSuccessResult
   <-> exists c, In c (AboveFold.ctaButtons (PageMetrics.aboveFold (Page.metrics page)))
                 /\ CTAButton.prominent c = true).
Proof.
  intros A. rewrite <- existsb_exists. split.
  - intros E. pose proof (analyze_outcome now page) as O. rewrite E in O.
    inversion O; congruence.
  - now apply analyze_flagged.
Qed.

(** A button that meets both conditions does earn full credit. *)
Lemma analyze_full_credit_if_prominent (now : Z) (page : Page.t) (c : CTAButton.t) :
  HeroCTARule.isApplicablePageType (Page.type page) = true ->
  In c (AboveFold.ctaButtons (PageMetrics.aboveFold (Page.metrics page))) ->
  HeroCTARule.isProminentCTA c = true ->
  HeroCTARule.analyze now page = HeroCTARule.createSuccessResult.
Proof.
  intros A I P. apply analyze_full_credit_iff_flagged; [assumption | ].
  exists c. split; [assumption | ].
  unfold HeroCTARule.isProminentCTA in P. apply andb_true_iff in P. tauto.
Qed.

(** C1 (a defect of the code): the home page below has one button, flagged
    prominent by the extractor but 80x20, under the geometric minimum.  No
    button of the page satisfies both conditions ([isProminentCTA] is false
    on each), yet [analyze] grants full credit: passed=true, score=15,
    finding=null. *)
Theorem analyze_full_credit_below_minimum_size (now : Z) :
  let page := testPage "test-page-2" "home" [smallFlaggedCTA] in
  existsb HeroCTARule.isProminentCTA
    (AboveFold.ctaButtons (PageMetrics.aboveFold (Page.metrics page))) = false
  /\ HeroCTARule.analyze now page
     = {| HeuristicResult.passed := true;
          HeuristicResult.score := 15;
          HeuristicResult.finding := None;
          HeuristicResult.skipped := None;
          HeuristicResult.reason := None |}.
Proof. split; reflexivity. Qed.

(** C4 (the same defect): on the home page below the list of buttons is not
    empty and none of them qualifies as prominent ([isProminentCTA] is false
    on each: one is small and not flagged, the other flagged but small),
    yet [analyze] does not return the weak result: it returns passed=true,
    score=15 and no finding. *)
Theorem analyze_no_weak_result_for_small_flagged (now : Z) :
  let ctas := [smallCTA; smallFlaggedCTA] in
  let r := HeroCTARule.analyze now (testPage "test-page-3" "home" ctas) in
  forallb (fun c => negb (HeroCTARule.isProminentCTA c)) ctas = true
  /\ HeuristicResult.passed r = true
  /\ HeuristicResult.score r = 15
  /\ HeuristicResult.finding r = None.
Proof. repeat split; reflexivity. Qed.

(** What the weak branch returns, when it is taken: the list is not empty
    and no button carries the flag. *)
Lemma analyze_weak_result (now : Z) (page : Page.t) :
  HeroCTARule.isApplicablePageType (Page.type page) = true ->
  AboveFold.ctaButtons (PageMetrics.aboveFold (Page.metrics page)) <> [] ->
  (forall c, In c (AboveFold.ctaButtons (PageMetrics.aboveFold (Page.metrics page))) ->
             CTAButton.prominent c = false) ->
  let ctas := AboveFold.ctaButtons (PageMetrics.aboveFold (Page.metrics page)) in
  let r := HeroCTARule.analyze now page in
  HeuristicResult.passed r = false
  /\ HeuristicResult.score r = 7
  /\ exists f : Finding.t,
       HeuristicResult.finding r = Some f
       /\ Finding.ruleId f = "hero_cta_weak"
       /\ Finding.severity f = med
       /\ Finding.evidence f =
            [("ctaCount", VNumber (of_nat (List.length ctas)));
             ("prominentCount", VNumber (of_Z 0));
             ("weakCTAs",
              VArray (map (fun cta =>
                             VObject [("text", VString (CTAButton.text cta));
                                      ("size", value_of_size (CTAButton.size cta));
                                      ("prominent", VBool (CTAButton.prominent cta))])
                          ctas))].
Proof.
  intros A N F ctas r. subst ctas r.
  rewrite analyze_unflagged; try assumption.
  - rewrite createWeakCTAResult_score.
    unfold HeroCTARule.createWeakCTAResult.
    cbn [HeuristicResult.passed HeuristicResult.finding].
    repeat split. eexists. repeat split.
  - destruct (existsb _ _) eqn:E; [ | reflexivity ].
    apply existsb_exists in E. destruct E as [c [I P]].
    rewrite (F c I) in P. discriminate.
Qed.

(* ================================================================= *)
(** ** The rule at run time *)

Lemma get_returns (v : value) (key : string) :
  Dyn.nullish v = false -> exists x, Dyn.get v key = Dyn.Return x.
Proof. destruct v; intros N; try discriminate N; eexists; reflexivity. Qed.

Lemma get_not_nullish (v x : value) (key : string) :
  Dyn.get v key = Dyn.Return x -> Dyn.nullish v = false.
Proof. destruct v; intros G; try discriminate G; reflexivity. Qed.

Lemma filterM_flagged (items : list value) :
  Forall (fun v => Dyn.nullish v = false) items ->
  Dyn.filterM (fun cta => Dyn.bind (Dyn.get cta "prominent")
                            (fun prominent => Dyn.Return (Dyn.truthy prominent)))
              items
  = Dyn.Return (filter flagged items).
Proof.
  induction 1 as [ | v rest N _ IH ]; [reflexivity | ].
  destruct (get_returns v "prominent" N) as [x G].
  cbn [Dyn.filterM filter]. unfold flagged at 1. rewrite G, IH. reflexivity.
Qed.

Lemma some_flagged (items : list value) :
  (0 <? List.length (filter flagged items))%nat = existsb flagged items.
Proof.
  induction items as [ | v rest IH ]; [reflexivity | ].
  cbn [filter existsb]. destruct (flagged v); [reflexivity | exact IH].
Qed.

Lemma weak_entries_return (items : list value) :
  Forall (fun v => Dyn.nullish v = false) items ->
  exists entries,
    Dyn.mapM (fun cta =>
                Dyn.bind (Dyn.get cta "text") (fun text =>
                Dyn.bind (Dyn.get cta "size") (fun size =>
                Dyn.bind (Dyn.get cta "prominent") (fun prominent =>
                Dyn.Return (VObject [("text", text); ("size", size);
                                     ("prominent", prominent)])))))
             items
    = Dyn.Return entries.
Proof.
  induction 1 as [ | v rest N _ IH ]; [eexists; reflexivity | ].
  destruct IH as [entries IH].
  destruct (get_returns v "text" N) as [t Gt].
  destruct (get_returns v "size" N) as [s Gs].
  destruct (get_returns v "prominent" N) as [p Gp].
  cbn [Dyn.mapM]. rewrite Gt. cbn [Dyn.bind]. rewrite Gs. cbn [Dyn.bind].
  rewrite Gp. cbn [Dyn.bind]. rewrite IH. cbn [Dyn.bind].
  eexists. reflexivity.
Qed.

Lemma flagged_of_typed (ctas : list CTAButton.t) :
  Dyn.filterM (fun cta => Dyn.bind (Dyn.get cta "prominent")
                            (fun prominent => Dyn.Return (Dyn.truthy prominent)))
              (map value_of_cta ctas)
  = Dyn.Return (map value_of_cta (filter (fun cta => CTAButton.prominent cta) ctas)).
Proof.
  induction ctas as [ | c rest IH ]; [reflexivity | ].
  cbn [map Dyn.filterM filter]. rewrite IH.
  change (Dyn.get (value_of_cta c) "prominent")
    with (Dyn.Return (VBool (CTAButton.prominent c))).
  cbn [Dyn.bind Dyn.truthy]. destruct (CTAButton.prominent c); reflexivity.
Qed.

Lemma weak_entries_of_typed (ctas : list CTAButton.t) :
  Dyn.mapM (fun cta =>
              Dyn.bind (Dyn.get cta "text") (fun text =>
              Dyn.bind (Dyn.get cta "size") (fun size =>
              Dyn.bind (Dyn.get cta "prominent") (fun prominent =>
              Dyn.Return (VObject [("text", text); ("size", size);
                                   ("prominent", prominent)])))))
           (map value_of_cta ctas)
  = Dyn.Return
      (map (fun cta => VObject [("text", VString (CTAButton.text cta));
                                ("size", value_of_size (CTAButton.size cta));
                                ("prominent", VBool (CTAButton.prominent cta))])
           ctas).
Proof.
  induction ctas as [ | c rest IH ]; [reflexivity | ].
  cbn [map Dyn.mapM]. rewrite IH. reflexivity.
Qed.

(** On a page of the declared type the run-time reading of [analyze] never
    throws and returns what the typed reading returns. *)
Lemma analyze_typed (now : Z) (page : Page.t) :
  Dyn.analyze now (Dyn.of_page page) = Dyn.Return (HeroCTARule.analyze now page).
Proof.
  unfold Dyn.analyze, HeroCTARule.analyze.
  destruct page as [id crawlId url type [[ctas height] performance] findings crawl].
  cbn [Dyn.of_page Dyn.RawPage.type Dyn.RawPage.metrics Page.type Page.metrics Page.id
       PageMetrics.aboveFold AboveFold.ctaButtons].
  destruct (HeroCTARule.isApplicablePageType type); cbn [negb]; [ | reflexivity ].
  change (Dyn.get (value_of_metrics _) "aboveFold")
    with (Dyn.Return (VObject [("ctaButtons", VArray (map value_of_cta ctas));
                               ("height", VNumber height)])).
  cbn [Dyn.bind].
  change (Dyn.get (VObject _) "ctaButtons")
    with (Dyn.Return (VArray (map value_of_cta ctas))).
  cbn [Dyn.bind].
  change (Dyn.get (VArray (map value_of_cta ctas)) "length")
    with (Dyn.Return (VNumber (of_nat (List.length (map value_of_cta ctas))))).
  cbn [Dyn.bind Dyn.strict_equals_number].
  rewrite of_nat_is_zero, length_map.
  destruct (List.length ctas =? 0)%nat; [reflexivity | ].
  cbn [Dyn.call_filter]. rewrite flagged_of_typed. cbn [Dyn.bind].
  rewrite length_map.
  destruct (0 <? List.length (filter _ ctas))%nat; [reflexivity | ].
  unfold Dyn.createWeakCTAResult, HeroCTARule.createWeakCTAResult.
  change (Dyn.get (VArray (map value_of_cta ctas)) "length")
    with (Dyn.Return (VNumber (of_nat (List.length (map value_of_cta ctas))))).
  cbn [Dyn.bind Dyn.call_map]. rewrite weak_entries_of_typed, length_map.
  reflexivity.
Qed.

(** C2 (counterexample): on the home page whose metrics have no [aboveFold]
    member, and on the one whose [aboveFold] has no [ctaButtons] member,
    [analyze] throws a TypeError; it does not return the result it gives
    for an empty list of buttons. *)
Lemma analyze_throws_on_missing_member :
  Dyn.analyze 1700000000000 pageWithoutAboveFold
  = Dyn.Throw (Dyn.CannotReadProperty "ctaButtons")
  /\ Dyn.analyze 1700000000000 pageWithoutCtaButtons
     = Dyn.Throw (Dyn.CannotReadProperty "length")
  /\ Dyn.analyze 1700000000000 (Dyn.of_page (testPage "test-page-5" "home" []))
     = Dyn.Return (HeroCTARule.createMissingCTAResult 1700000000000
                     (testPage "test-page-5" "home" [])).
Proof. repeat split; reflexivity. Qed.

(** C2 (as amended): on a home or product page whose
    [metrics.aboveFold.ctaButtons] is present and is an array without
    [null] or [undefined] entries, [analyze] does not throw: it returns a
    result, whatever else is missing from the metrics (the height, the
    performance group, members of a button).  A button whose [prominent]
    member is missing counts as not prominent: the result has passed=true
    exactly when some entry carries a truthy [prominent] member. *)
Theorem analyze_returns_when_buttons_present
    (now : Z) (page : Dyn.RawPage.t) (aboveFold : value) (items : list value) :
  HeroCTARule.isApplicablePageType (Dyn.RawPage.type page) = true ->
  Dyn.get (Dyn.RawPage.metrics page) "aboveFold" = Dyn.Return aboveFold ->
  Dyn.get aboveFold "ctaButtons" = Dyn.Return (VArray items) ->
  Forall (fun v => Dyn.nullish v = false) items ->
  exists r : HeuristicResult.t,
    Dyn.analyze now page = Dyn.Return r
    /\ HeuristicResult.passed r = existsb flagged items.
Proof.
  intros A G1 G2 N. unfold Dyn.analyze. rewrite A, G1. cbn [negb Dyn.bind].
  rewrite G2. cbn [Dyn.bind].
  change (Dyn.get (VArray items) "length")
    with (Dyn.Return (VNumber (of_nat (List.length items)))).
  cbn [Dyn.bind Dyn.strict_equals_number].
  rewrite of_nat_is_zero.
  destruct items as [ | v rest ].
  - cbn [List.length Nat.eqb existsb].
    unfold Dyn.createMissingCTAResult. rewrite G1. cbn [Dyn.bind].
    destruct (get_returns aboveFold "height" (get_not_nullish _ _ _ G2)) as [h Gh].
    rewrite Gh. cbn [Dyn.bind]. eexists. split; reflexivity.
  - cbn [List.length Nat.eqb Dyn.call_filter].
    rewrite (filterM_flagged _ N). cbn [Dyn.bind]. rewrite some_flagged.
    destruct (existsb flagged (v :: rest)); [eexists; split; reflexivity | ].
    unfold Dyn.createWeakCTAResult.
    change (Dyn.get (VArray (v :: rest)) "length")
      with (Dyn.Return (VNumber (of_nat (List.length (v :: rest))))).
    cbn [Dyn.bind Dyn.call_map].
    destruct (weak_entries_return _ N) as [entries E].
    rewrite E. cbn [Dyn.bind]. eexists. split; reflexivity.
Qed.

Lemma analyze_returns_when_buttons_present_witness :
  exists r : HeuristicResult.t,
    Dyn.analyze 1700000000000 pageWithBareButton = Dyn.Return r
    /\ HeuristicResult.passed r = false.
Proof.
  apply (analyze_returns_when_buttons_present 1700000000000 pageWithBareButton
           (VObject [("ctaButtons", VArray [VObject [("text", VString "Buy")]])])
           [VObject [("text", VString "Buy")]]).
  - reflexivity.
  - reflexivity.
  - reflexivity.
  - repeat constructor.
Defined.

(* ================================================================= *)
(** ** Repeated evaluation *)

(** The identity of a finding: rule, page and the reading of the clock. *)
Lemma createFinding_id (now : Z) (page : Page.t) (rule : string)
    (severity : Severity) (evidence : object) :
  let f := HeroCTARule.createFinding now page rule severity evidence in
  Finding.id f = Finding.ruleId f ++ "-" ++ Finding.pageId f ++ "-" ++ string_of_Z now.
Proof. reflexivity. Qed.

Lemma analyze_finding_identity (now : Z) (page : Page.t) (f : Finding.t) :
  HeuristicResult.finding (HeroCTARule.analyze now page) = Some f ->
  Finding.pageId f = Page.id page
  /\ Finding.id f = Finding.ruleId f ++ "-" ++ Page.id page ++ "-" ++ string_of_Z now.
Proof.
  by_outcome now page; intros E; try discriminate E;
    injection E as <-; split; reflexivity.
Qed.

(** C8 (counterexample): two home pages with the same type and the same
    metrics (an empty list of buttons) but different ids, evaluated at the
    same instant: the findings differ in [pageId]. *)
Lemma analyze_pageId_depends_on_page_id :
  let page1 := testPage "page-a" "home" [] in
  let page2 := testPage "page-b" "home" [] in
  Page.type page1 = Page.type page2
  /\ Page.metrics page1 = Page.metrics page2
  /\ option_map Finding.pageId
       (HeuristicResult.finding (HeroCTARule.analyze 1700000000000 page1))
     = Some "page-a"
  /\ option_map Finding.pageId
       (HeuristicResult.finding (HeroCTARule.analyze 1700000000000 page2))
     = Some "page-b"
  /\ option_map findingContent
       (HeuristicResult.finding (HeroCTARule.analyze 1700000000000 page1))
     <> option_map findingContent
          (HeuristicResult.finding (HeroCTARule.analyze 1700000000000 page2)).
Proof. repeat split; try reflexivity. discriminate. Qed.

(** C8 (as amended): for fixed page.type and page.metrics, any two calls
    of [analyze] (on any pages with that type and those metrics, at any two
    readings of the clock) return the same passed, score, skipped and
    reason, and findings with the same ruleId, severity and evidence.  The
    finding's pageId is the id of the page, so on pages with the same id
    (in particular on the same page) the whole content (ruleId, pageId,
    severity, evidence) is the same, and only the finding's [id], which is
    {ruleId}-{pageId}-{timestamp} for the clock reading of its call, may
    differ. *)
Theorem analyze_deterministic_up_to_finding_id
    (now1 now2 : Z) (page1 page2 : Page.t) :
  Page.type page1 = Page.type page2 ->
  Page.metrics page1 = Page.metrics page2 ->
  let r1 := HeroCTARule.analyze now1 page1 in
  let r2 := HeroCTARule.analyze now2 page2 in
  HeuristicResult.passed r1 = HeuristicResult.passed r2
  /\ HeuristicResult.score r1 = HeuristicResult.score r2
  /\ HeuristicResult.skipped r1 = HeuristicResult.skipped r2
  /\ HeuristicResult.reason r1 = HeuristicResult.reason r2
  /\ option_map findingVerdict (HeuristicResult.finding r1)
     = option_map findingVerdict (HeuristicResult.finding r2)
  /\ (Page.id page1 = Page.id page2 ->
      option_map findingContent (HeuristicResult.finding r1)
      = option_map findingContent (HeuristicResult.finding r2))
  /\ (forall f, HeuristicResult.finding r1 = Some f ->
        Finding.pageId f = Page.id page1
        /\ Finding.id f
           = Finding.ruleId f ++ "-" ++ Page.id page1 ++ "-" ++ string_of_Z now1)
  /\ (forall f, HeuristicResult.finding r2 = Some f ->
        Finding.pageId f = Page.id page2
        /\ Finding.id f
           = Finding.ruleId f ++ "-" ++ Page.id page2 ++ "-" ++ string_of_Z now2).
Proof.
  intros T M r1 r2.
  assert (C : HeuristicResult.passed r1 = HeuristicResult.passed r2
              /\ HeuristicResult.score r1 = HeuristicResult.score r2
              /\ HeuristicResult.skipped r1 = HeuristicResult.skipped r2
              /\ HeuristicResult.reason r1 = HeuristicResult.reason r2
              /\ option_map findingVerdict (HeuristicResult.finding r1)
                 = option_map findingVerdict (HeuristicResult.finding r2)
              /\ (Page.id page1 = Page.id page2 ->
                  option_map findingContent (HeuristicResult.finding r1)
                  = option_map findingContent (HeuristicResult.finding r2))).
  { subst r1 r2. unfold HeroCTARule.analyze. rewrite <- T, <- M.
    destruct (HeroCTARule.isApplicablePageType (Page.type page1)); cbn [negb];
      [ | repeat split ].
    destruct (List.length _ =? 0)%nat.
    - unfold HeroCTARule.createMissingCTAResult, HeroCTARule.createFinding,
        findingContent, findingVerdict.
      cbn [HeuristicResult.passed HeuristicResult.score HeuristicResult.skipped
           HeuristicResult.reason HeuristicResult.finding option_map
           Finding.ruleId Finding.pageId Finding.severity Finding.evidence].
      rewrite <- T, <- M. repeat split. intros <-. reflexivity.
    - destruct (0 <? _)%nat; [repeat split | ].
      unfold HeroCTARule.createWeakCTAResult, HeroCTARule.createFinding,
        findingContent, findingVerdict.
      cbn [HeuristicResult.passed HeuristicResult.score HeuristicResult.skipped
           HeuristicResult.reason HeuristicResult.finding option_map
           Finding.ruleId Finding.pageId Finding.severity Finding.evidence].
      repeat split. intros <-. reflexivity. }
  destruct C as (C1 & C2 & C3 & C4 & C5 & C6).
  split; [exact C1 | ]. split; [exact C2 | ]. split; [exact C3 | ].
  split; [exact C4 | ]. split; [exact C5 | ]. split; [exact C6 | ].
  split; intros f F; apply analyze_finding_identity in F; exact F.
Qed.

Lemma analyze_deterministic_up_to_finding_id_witness :
  let r1 := HeroCTARule.analyze 1700000000000 (testPage "test-page-3" "home" [smallCTA]) in
  let r2 := HeroCTARule.analyze 1700000086400 (testPage "test-page-3" "home" [smallCTA]) in
  HeuristicResult.passed r1 = HeuristicResult.passed r2
  /\ HeuristicResult.score r1 = HeuristicResult.score r2
  /\ HeuristicResult.skipped r1 = HeuristicResult.skipped r2
  /\ HeuristicResult.reason r1 = HeuristicResult.reason r2
  /\ option_map findingContent (HeuristicResult.finding r1)
     = option_map findingContent (HeuristicResult.finding r2)
  /\ option_map Finding.id (HeuristicResult.finding r1)
     = Some "hero_cta_weak-test-page-3-1700000000000"
  /\ option_map Finding.id (HeuristicResult.finding r2)
     = Some "hero_cta_weak-test-page-3-1700000086400".
Proof.
  destruct (analyze_deterministic_up_to_finding_id 1700000000000 1700000086400
              (testPage "test-page-3" "home" [smallCTA])
              (testPage "test-page-3" "home" [smallCTA]))
    as (P & S & K & R & _ & C & _ & _).
  - reflexivity.
  - reflexivity.
  - split; [exact P | ]. split; [exact S | ]. split; [exact K | ].
    split; [exact R | ]. split; [apply C; reflexivity | ].
    split; reflexivity.
Defined.

(* ================================================================= *)
(** ** Further properties of [analyze]: what decides the outcome *)

Lemma existsb_flags (ctas : list CTAButton.t) :
  existsb (fun flag => flag) (map CTAButton.prominent ctas)
  = existsb CTAButton.prominent ctas.
Proof.
  induction ctas as [ | c rest IH ]; [reflexivity | ].
  cbn [map existsb]. rewrite IH. reflexivity.
Qed.

(** [analyze] decides by the page type and the flags. *)
Lemma analyze_verdict (now : Z) (page : Page.t) :
  let r := HeroCTARule.analyze now page in
  (HeuristicResult.passed r, HeuristicResult.score r,
   option_map (fun f => (Finding.ruleId f, Finding.severity f)) (HeuristicResult.finding r))
  = verdict (Page.type page) (map CTAButton.prominent (buttons page)).
Proof.
  cbv zeta. unfold verdict, buttons. rewrite existsb_flags.
  pose proof (analyze_outcome now page) as O.
  destruct O as [A | A E | A E | A N E]; rewrite A; cbn [negb].
  - reflexivity.
  - rewrite E. reflexivity.
  - rewrite E.
    destruct (AboveFold.ctaButtons _) as [ | c rest ]; [discriminate E | reflexivity].
  - rewrite createWeakCTAResult_score, E.
    destruct (AboveFold.ctaButtons _) as [ | c rest ]; [contradiction | reflexivity].
Qed.

Lemma analyze_skipped_iff (now : Z) (page : Page.t) :
  HeuristicResult.skipped (HeroCTARule.analyze now page) = Some true
  <-> HeroCTARule.isApplicablePageType (Page.type page) = false.
Proof.
  pose proof (analyze_outcome now page) as O.
  destruct O as [A | A E | A E | A N E]; rewrite A;
    split; intros H; try discriminate H; reflexivity.
Qed.

Lemma analyze_skipped_reason (now : Z) (page : Page.t) :
  HeuristicResult.reason (HeroCTARule.analyze now page)
  = if HeroCTARule.isApplicablePageType (Page.type page) then None
    else Some "Rule only applies to home and product pages".
Proof.
  pose proof (analyze_outcome now page) as O.
  destruct O as [A | A E | A E | A N E]; rewrite A; reflexivity.
Qed.

Lemma not_applicable_iff (t : string) :
  HeroCTARule.isApplicablePageType t = false <-> t <> "home" /\ t <> "product".
Proof.
  rewrite <- Bool.not_true_iff_false, isApplicablePageType_iff. tauto.
Qed.

Lemma unflagged_iff (ctas : list CTAButton.t) :
  existsb CTAButton.prominent ctas = false
  <-> forall c, In c ctas -> CTAButton.prominent c = false.
Proof.
  rewrite <- Bool.not_true_iff_false, existsb_exists. split.
  - intros H c I. destruct (CTAButton.prominent c) eqn:P; [ | reflexivity ].
    exfalso. apply H. exists c. split; assumption.
  - intros H [c [I P]]. rewrite (H c I) in P. discriminate.
Qed.

(** X1: [analyze] returns passed=true (equivalently, score 15) exactly on
    the home and product pages that have at least one button carrying the
    extractor's [prominent] flag; the size of the buttons plays no part. *)
Theorem full_credit_exactly_when_flagged (now : Z) (page : Page.t) :
  let r := HeroCTARule.analyze now page in
  (HeuristicResult.passed r = true <->
   (Page.type page = "home" \/ Page.type page = "product")
   /\ exists c, In c (buttons page) /\ CTAButton.prominent c = true)
  /\ (HeuristicResult.score r = 15 <-> HeuristicResult.passed r = true).
Proof.
  cbv zeta. rewrite <- isApplicablePageType_iff, <- existsb_exists. unfold buttons.
  pose proof (analyze_outcome now page) as O.
  destruct O as [A | A E | A E | A N E]; rewrite ?createWeakCTAResult_score;
    cbn [HeuristicResult.passed HeuristicResult.score
         HeroCTARule.createSkippedResult HeroCTARule.createMissingCTAResult
         HeroCTARule.createSuccessResult HeroCTARule.createWeakCTAResult];
    rewrite A; try rewrite E; unfold HeroCTARule.maxScore;
    intuition (discriminate || congruence).
Qed.

(** X2: the other outcomes.  The result is skipped exactly when the page
    type is neither 'home' nor 'product'.  A finding of severity 'high' is
    returned exactly on home and product pages without buttons, one of
    severity 'med' exactly on home and product pages that have buttons none
    of which carries the flag; no finding of severity 'low' is ever
    returned, and there is no finding exactly when the result is skipped or
    passed. *)
Theorem analyze_decision_table (now : Z) (page : Page.t) :
  let r := HeroCTARule.analyze now page in
  let applicable := Page.type page = "home" \/ Page.type page = "product" in
  (HeuristicResult.skipped r = Some true <->
   Page.type page <> "home" /\ Page.type page <> "product")
  /\ (option_map Finding.severity (HeuristicResult.finding r) = Some high <->
      applicable /\ buttons page = [])
  /\ (option_map Finding.severity (HeuristicResult.finding r) = Some med <->
      applicable /\ buttons page <> []
      /\ forall c, In c (buttons page) -> CTAButton.prominent c = false)
  /\ option_map Finding.severity (HeuristicResult.finding r) <> Some low
  /\ (HeuristicResult.finding r = None <->
      HeuristicResult.skipped r = Some true \/ HeuristicResult.passed r = true).
Proof.
  cbv zeta. rewrite <- isApplicablePageType_iff, <- not_applicable_iff, <- unflagged_iff.
  unfold buttons.
  pose proof (analyze_outcome now page) as O.
  destruct O as [A | A E | A E | A N E];
    cbn [HeuristicResult.passed HeuristicResult.finding HeuristicResult.skipped
         HeroCTARule.createSkippedResult HeroCTARule.createMissingCTAResult
         HeroCTARule.createSuccessResult HeroCTARule.createWeakCTAResult
         HeroCTARule.createFinding option_map Finding.severity];
    rewrite A.
  - intuition (discriminate || congruence).
  - rewrite E. intuition (discriminate || congruence).
  - assert (N : AboveFold.ctaButtons (PageMetrics.aboveFold (Page.metrics page)) <> [])
      by (intros Z; rewrite Z in E; discriminate E).
    rewrite E. intuition (discriminate || congruence).
  - rewrite E. intuition (discriminate || congruence).
Qed.

(** X3: a finding returned by [analyze] is of one of two kinds: ruleId
    'hero_cta_missing' with severity 'high' and score 0, or ruleId
    'hero_cta_weak' with severity 'med' and score 7.  Its ruleId is never
    the ruleId of the rule itself ('hero_cta_detection'). *)
Theorem finding_kinds (now : Z) (page : Page.t) :
  let r := HeroCTARule.analyze now page in
  (HeuristicResult.finding r = None
   \/ (exists f, HeuristicResult.finding r = Some f
                 /\ Finding.ruleId f = "hero_cta_missing"
                 /\ Finding.severity f = high
                 /\ HeuristicResult.score r = 0)
   \/ (exists f, HeuristicResult.finding r = Some f
                 /\ Finding.ruleId f = "hero_cta_weak"
                 /\ Finding.severity f = med
                 /\ HeuristicResult.score r = 7))
  /\ option_map Finding.ruleId (HeuristicResult.finding r) <> Some (ruleId heroCTARule).
Proof.
  cbv zeta. by_outcome now page; (split; [ | discriminate ]).
  - left. reflexivity.
  - right. left. eexists. repeat split.
  - left. reflexivity.
  - right. right. eexists. repeat split.
Qed.

Lemma analyze_passed_by_flags (now : Z) (page : Page.t) :
  HeuristicResult.passed (HeroCTARule.analyze now page)
  = HeroCTARule.isApplicablePageType (Page.type page)
    && existsb CTAButton.prominent (buttons page).
Proof.
  unfold buttons. pose proof (analyze_outcome now page) as O.
  destruct O as [A | A E | A E | A N E]; rewrite A; try rewrite E; reflexivity.
Qed.

Lemma analyze_score_by_flags (now : Z) (page : Page.t) :
  HeuristicResult.score (HeroCTARule.analyze now page)
  = if HeroCTARule.isApplicablePageType (Page.type page)
    then if existsb CTAButton.prominent (buttons page) then 15
         else match buttons page with [] => 0 | _ :: _ => 7 end
    else 0.
Proof.
  unfold buttons. pose proof (analyze_outcome now page) as O.
  destruct O as [A | A E | A E | A N E]; rewrite A; try rewrite E.
  - reflexivity.
  - reflexivity.
  - reflexivity.
  - rewrite createWeakCTAResult_score.
    destruct (AboveFold.ctaButtons _); [contradiction | reflexivity].
Qed.

Lemma analyze_skipped_by_type (now : Z) (page : Page.t) :
  HeuristicResult.skipped (HeroCTARule.analyze now page)
  = if HeroCTARule.isApplicablePageType (Page.type page) then None else Some true.
Proof.
  pose proof (analyze_outcome now page) as O.
  destruct O as [A | A E | A E | A N E]; rewrite A; reflexivity.
Qed.

Lemma existsb_incl (f : CTAButton.t -> bool) (l1 l2 : list CTAButton.t) :
  incl l1 l2 -> existsb f l1 = true -> existsb f l2 = true.
Proof.
  intros I E. apply existsb_exists in E. destruct E as [c [H P]].
  apply existsb_exists. exists c. split; [apply I; exact H | exact P].
Qed.

(** X4: buttons only ever help.  If every button of a page also occurs on
    a second page of the same type, the second page scores at least as
    much, and passes if the first does; if the two pages have the same
    buttons up to order and repetition, they get the same score and the
    same passed. *)
Theorem score_monotone_in_buttons (now1 now2 : Z) (page1 page2 : Page.t) :
  Page.type page1 = Page.type page2 ->
  incl (buttons page1) (buttons page2) ->
  let r1 := HeroCTARule.analyze now1 page1 in
  let r2 := HeroCTARule.analyze now2 page2 in
  HeuristicResult.score r1 <= HeuristicResult.score r2
  /\ (HeuristicResult.passed r1 = true -> HeuristicResult.passed r2 = true)
  /\ (incl (buttons page2) (buttons page1) ->
      HeuristicResult.score r1 = HeuristicResult.score r2
      /\ HeuristicResult.passed r1 = HeuristicResult.passed r2).
Proof.
  intros T I r1 r2. subst r1 r2.
  rewrite !analyze_score_by_flags, !analyze_passed_by_flags, <- T.
  destruct (HeroCTARule.isApplicablePageType (Page.type page1)); cbn [andb];
    [ | repeat split; (lia || auto) ].
  pose proof (existsb_incl CTAButton.prominent _ _ I) as M.
  destruct (existsb CTAButton.prominent (buttons page1)) eqn:E1.
  - rewrite (M eq_refl). repeat split; (lia || auto).
  - assert (N : buttons page1 <> [] -> buttons page2 <> []).
    { intros N1 N2. destruct (buttons page1) as [ | c rest ]; [contradiction | ].
      specialize (I c (or_introl eq_refl)). rewrite N2 in I. exact I. }
    split; [ | split; [discriminate | ] ].
    + destruct (existsb CTAButton.prominent (buttons page2));
        destruct (buttons page1); destruct (buttons page2); try lia.
      exfalso. apply N; [discriminate | reflexivity].
    + intros J.
      assert (E2 : existsb CTAButton.prominent (buttons page2) = false).
      { destruct (existsb CTAButton.prominent (buttons page2)) eqn:E2; [ | reflexivity ].
        rewrite (existsb_incl _ _ _ J E2) in E1. discriminate E1. }
      rewrite E2. split; [ | reflexivity ].
      destruct (buttons page1) as [ | c1 rest1 ]; destruct (buttons page2) as [ | c2 rest2 ];
        try reflexivity.
      * specialize (J c2 (or_introl eq_refl)). contradiction.
      * specialize (I c1 (or_introl eq_refl)). contradiction.
Qed.

Lemma score_monotone_in_buttons_witness :
  let r1 := HeroCTARule.analyze 1700000000000 (testPage "test-page-3" "home" [smallCTA]) in
  let r2 := HeroCTARule.analyze 1700000086400
              (testPage "test-page-3" "home" [prominentCTA; smallCTA]) in
  HeuristicResult.score r1 <= HeuristicResult.score r2
  /\ (HeuristicResult.passed r1 = true -> HeuristicResult.passed r2 = true)
  /\ (incl [prominentCTA; smallCTA] [smallCTA] ->
      HeuristicResult.score r1 = HeuristicResult.score r2
      /\ HeuristicResult.passed r1 = HeuristicResult.passed r2).
Proof.
  apply (score_monotone_in_buttons 1700000000000 1700000086400
           (testPage "test-page-3" "home" [smallCTA])
           (testPage "test-page-3" "home" [prominentCTA; smallCTA])).
  - reflexivity.
  - intros c [<- | []]. right. left. reflexivity.
Defined.

(** X5: the decision of [analyze] reads nothing but the page type and the
    [prominent] flags.  Two pages of the same type whose buttons carry the
    same flags, in the same order, get the same passed, score, skipped and
    reason and findings of the same ruleId and severity, whatever the
    sizes, positions, texts and selectors of the buttons, the height of the
    fold and the load time are. *)
Theorem decision_reads_type_and_flags_only (now1 now2 : Z) (page1 page2 : Page.t) :
  Page.type page1 = Page.type page2 ->
  map CTAButton.prominent (buttons page1) = map CTAButton.prominent (buttons page2) ->
  let r1 := HeroCTARule.analyze now1 page1 in
  let r2 := HeroCTARule.analyze now2 page2 in
  HeuristicResult.passed r1 = HeuristicResult.passed r2
  /\ HeuristicResult.score r1 = HeuristicResult.score r2
  /\ HeuristicResult.skipped r1 = HeuristicResult.skipped r2
  /\ HeuristicResult.reason r1 = HeuristicResult.reason r2
  /\ option_map Finding.ruleId (HeuristicResult.finding r1)
     = option_map Finding.ruleId (HeuristicResult.finding r2)
  /\ option_map Finding.severity (HeuristicResult.finding r1)
     = option_map Finding.severity (HeuristicResult.finding r2).
Proof.
  intros T F r1 r2.
  pose proof (analyze_verdict now1 page1) as V1.
  pose proof (analyze_verdict now2 page2) as V2.
  cbv zeta in V1, V2. rewrite <- T, <- F, <- V1 in V2.
  injection V2 as P S K. subst r1 r2.
  rewrite !analyze_skipped_by_type, !analyze_skipped_reason, <- T.
  repeat split; try congruence.
  - destruct (HeuristicResult.finding (HeroCTARule.analyze now1 page1));
      destruct (HeuristicResult.finding (HeroCTARule.analyze now2 page2));
      cbn [option_map] in *; congruence.
  - destruct (HeuristicResult.finding (HeroCTARule.analyze now1 page1));
      destruct (HeuristicResult.finding (HeroCTARule.analyze now2 page2));
      cbn [option_map] in *; congruence.
Qed.

Lemma decision_reads_type_and_flags_only_witness :
  let r1 := HeroCTARule.analyze 1700000000000 (testPage "test-page-3" "home" [smallCTA]) in
  let r2 := HeroCTARule.analyze 1700000086400
              (testPage "test-page-8" "home" [largeUnflaggedCTA]) in
  HeuristicResult.passed r1 = HeuristicResult.passed r2
  /\ HeuristicResult.score r1 = HeuristicResult.score r2
  /\ HeuristicResult.skipped r1 = HeuristicResult.skipped r2
  /\ HeuristicResult.reason r1 = HeuristicResult.reason r2
  /\ option_map Finding.ruleId (HeuristicResult.finding r1)
     = option_map Finding.ruleId (HeuristicResult.finding r2)
  /\ option_map Finding.severity (HeuristicResult.finding r1)
     = option_map Finding.severity (HeuristicResult.finding r2).
Proof.
  apply (decision_reads_type_and_flags_only 1700000000000 1700000086400
           (testPage "test-page-3" "home" [smallCTA])
           (testPage "test-page-8" "home" [largeUnflaggedCTA])); reflexivity.
Defined.

(** X6: on a home or product page that has buttons none of which carries
    the flag, [analyze] returns exactly this: passed=false, score 7, and a
    finding 'hero_cta_weak' of severity 'med' for the page, whose evidence
    has ctaCount equal to the number of buttons, prominentCount 0, and in
    weakCTAs one entry per button, in the order of the page, with the
    button's text and size and with prominent: false. *)
Theorem weak_result_in_full (now : Z) (page : Page.t) :
  Page.type page = "home" \/ Page.type page = "product" ->
  buttons page <> [] ->
  (forall c, In c (buttons page) -> CTAButton.prominent c = false) ->
  HeroCTARule.analyze now page
  = {| HeuristicResult.passed := false;
       HeuristicResult.score := 7;
       HeuristicResult.finding :=
         Some {| Finding.id := "hero_cta_weak-" ++ Page.id page ++ "-" ++ string_of_Z now;
                 Finding.pageId := Page.id page;
                 Finding.ruleId := "hero_cta_weak";
                 Finding.severity := med;
                 Finding.evidence :=
                   [("ctaCount", VNumber (of_nat (List.length (buttons page))));
                    ("prominentCount", VNumber (of_Z 0));
                    ("weakCTAs",
                     VArray (map (fun cta =>
                                    VObject [("text", VString (CTAButton.text cta));
                                             ("size", value_of_size (CTAButton.size cta));
                                             ("prominent", VBool false)])
                                 (buttons page)))] |};
       HeuristicResult.skipped := None;
       HeuristicResult.reason := None |}.
Proof.
  intros T N F. unfold buttons in *.
  rewrite analyze_unflagged;
    [ | apply isApplicablePageType_iff; exact T | exact N | apply unflagged_iff; exact F ].
  unfold HeroCTARule.createWeakCTAResult, HeroCTARule.createFinding.
  rewrite weak_score.
  rewrite (map_ext_in
             (fun cta => VObject [("text", VString (CTAButton.text cta));
                                  ("size", value_of_size (CTAButton.size cta));
                                  ("prominent", VBool (CTAButton.prominent cta))])
             (fun cta => VObject [("text", VString (CTAButton.text cta));
                                  ("size", value_of_size (CTAButton.size cta));
                                  ("prominent", VBool false)])).
  - reflexivity.
  - intros c I. rewrite (F c I). reflexivity.
Qed.

Lemma weak_result_in_full_witness :
  HeroCTARule.analyze 1700000000000 (testPage "test-page-3" "product" [smallCTA; largeUnflaggedCTA])
  = {| HeuristicResult.passed := false;
       HeuristicResult.score := 7;
       HeuristicResult.finding :=
         Some {| Finding.id := "hero_cta_weak-test-page-3-1700000000000";
                 Finding.pageId := "test-page-3";
                 Finding.ruleId := "hero_cta_weak";
                 Finding.severity := med;
                 Finding.evidence :=
                   [("ctaCount", VNumber (of_Z 2));
                    ("prominentCount", VNumber (of_Z 0));
                    ("weakCTAs",
                     VArray [VObject [("text", VString "Learn more");
                                      ("size", value_of_size (px 80 20));
                                      ("prominent", VBool false)];
                             VObject [("text", VString "Shop Now");
                                      ("size", value_of_size (px 200 50));
                                      ("prominent", VBool false)]])] |};
       HeuristicResult.skipped := None;
       HeuristicResult.reason := None |}.
Proof.
  apply (weak_result_in_full 1700000000000
           (testPage "test-page-3" "product" [smallCTA; largeUnflaggedCTA])).
  - right. reflexivity.
  - discriminate.
  - intros c [<- | [<- | []]]; reflexivity.
Defined.

(** X7: the helper and the rule agree in one direction.  On a home or
    product page, a button on which [isProminentCTA] returns true earns the
    page the full result {passed: true, score: 15, finding: null}. *)
Theorem prominent_button_earns_full_credit (now : Z) (page : Page.t) (c : CTAButton.t) :
  Page.type page = "home" \/ Page.type page = "product" ->
  In c (buttons page) ->
  HeroCTARule.isProminentCTA c = true ->
  HeroCTARule.analyze now page
  = {| HeuristicResult.passed := true;
       HeuristicResult.score := 15;
       HeuristicResult.finding := None;
       HeuristicResult.skipped := None;
       HeuristicResult.reason := None |}.
Proof.
  intros T I P. unfold buttons in I.
  rewrite analyze_flagged; [reflexivity | apply isApplicablePageType_iff; exact T | ].
  apply existsb_exists. exists c. split; [exact I | ].
  unfold HeroCTARule.isProminentCTA in P. apply andb_true_iff in P. tauto.
Qed.

Lemma prominent_button_earns_full_credit_witness :
  HeroCTARule.analyze 1700000000000 (testPage "test-page-2" "home" [smallCTA; prominentCTA])
  = {| HeuristicResult.passed := true;
       HeuristicResult.score := 15;
       HeuristicResult.finding := None;
       HeuristicResult.skipped := None;
       HeuristicResult.reason := None |}.
Proof.
  apply (prominent_button_earns_full_credit 1700000000000
           (testPage "test-page-2" "home" [smallCTA; prominentCTA]) prominentCTA).
  - left. reflexivity.
  - right. left. reflexivity.
  - reflexivity.
Defined.

(* ================================================================= *)
(** ** Further properties of [isProminentCTA] *)

Lemma number_leb_trans (a b c : number) :
  number_leb a b = true -> number_leb b c = true -> number_leb a c = true.
Proof.
  destruct a as [ | [ | ] | p ], b as [ | [ | ] | q ], c as [ | [ | ] | r ];
    cbn [number_leb]; intros H1 H2; try discriminate; try reflexivity.
  apply Qle_bool_iff in H1, H2. apply Qle_bool_iff.
  eapply Qle_trans; eassumption.
Qed.

(** X8: prominence is monotone in the size.  If [isProminentCTA] holds of
    a button, it holds of every flagged button that is at least as wide
    and at least as high. *)
Theorem isProminentCTA_monotone (c c' : CTAButton.t) :
  HeroCTARule.isProminentCTA c = true ->
  CTAButton.prominent c' = true ->
  number_leb (Size.width (CTAButton.size c)) (Size.width (CTAButton.size c')) = true ->
  number_leb (Size.height (CTAButton.size c)) (Size.height (CTAButton.size c')) = true ->
  HeroCTARule.isProminentCTA c' = true.
Proof.
  unfold HeroCTARule.isProminentCTA, number_geb. intros P F W H.
  apply andb_true_iff in P. destruct P as [P _].
  apply andb_true_iff in P. destruct P as [Pw Ph].
  rewrite F, (number_leb_trans _ _ _ Pw W), (number_leb_trans _ _ _ Ph H). reflexivity.
Qed.

Lemma isProminentCTA_monotone_witness :
  HeroCTARule.isProminentCTA
    {| CTAButton.text := "Buy";
       CTAButton.selector := ".buy";
       CTAButton.position := {| Position.top := of_Z 0; Position.left := of_Z 0 |};
       CTAButton.size := px 320 50;
       CTAButton.prominent := true |} = true.
Proof.
  apply (isProminentCTA_monotone prominentCTA); reflexivity.
Defined.

(* ================================================================= *)
(** ** Further properties of [analyze] at run time *)


Lemma analyze_returned (now : Z) (page : Dyn.RawPage.t) (r : HeuristicResult.t) :
  Dyn.analyze now page = Dyn.Return r -> returned now page r.
Proof.
  unfold Dyn.analyze.
  destruct (HeroCTARule.isApplicablePageType (Dyn.RawPage.type page)); cbn [negb];
    [ | intros [= <-]; constructor ].
  destruct (Dyn.get (Dyn.RawPage.metrics page) "aboveFold") as [aboveFold | e] eqn:G1;
    cbn [Dyn.bind]; [ | discriminate ].
  destruct (Dyn.get aboveFold "ctaButtons") as [ctaButtons | e] eqn:G2;
    cbn [Dyn.bind]; [ | discriminate ].
  destruct (Dyn.get ctaButtons "length") as [len | e] eqn:G3;
    cbn [Dyn.bind]; [ | discriminate ].
  destruct (Dyn.strict_equals_number len (of_Z 0)).
  - unfold Dyn.createMissingCTAResult. rewrite G1. cbn [Dyn.bind].
    destruct (Dyn.get aboveFold "height") as [height | e]; cbn [Dyn.bind];
      [ | discriminate ].
    intros [= <-]. constructor.
  - destruct (Dyn.call_filter ctaButtons _) as [prominentCTAs | e]; cbn [Dyn.bind];
      [ | discriminate ].
    destruct (0 <? List.length prominentCTAs)%nat; [intros [= <-]; constructor | ].
    unfold Dyn.createWeakCTAResult. rewrite G3. cbn [Dyn.bind].
    destruct (Dyn.call_map ctaButtons _) as [weakCTAs | e]; cbn [Dyn.bind];
      [ | discriminate ].
    rewrite weak_score. intros [= <-]. constructor.
Qed.



(** X10: a page whose metrics have the declared shape never makes
    [analyze] throw: at run time, on the object that a typed page is,
    [analyze] returns, and what it returns is the result of the typed
    reading, evidence included. *)
Theorem typed_page_never_throws (now : Z) (page : Page.t) :
  exists r : HeuristicResult.t,
    Dyn.analyze now (Dyn.of_page page) = Dyn.Return r
    /\ r = HeroCTARule.analyze now page.
Proof.
  exists (HeroCTARule.analyze now page). split; [ | reflexivity ].
  apply analyze_typed.
Qed.

(** X11: whatever the metrics are, a result that [analyze] returns has
    score 0, 7 or 15, has passed=true exactly when the score is 15, carries
    no finding when it is skipped or passed, has score 0 when it is
    skipped, and names the page in its finding. *)
Theorem returned_result_invariant (now : Z) (page : Dyn.RawPage.t) (r : HeuristicResult.t) :
  Dyn.analyze now page = Dyn.Return r ->
  (HeuristicResult.score r = 0 \/ HeuristicResult.score r = 7
   \/ HeuristicResult.score r = 15)
  /\ (HeuristicResult.passed r = true <-> HeuristicResult.score r = 15)
  /\ (HeuristicResult.skipped r = Some true ->
      HeuristicResult.finding r = None /\ HeuristicResult.score r = 0)
  /\ (HeuristicResult.passed r = true -> HeuristicResult.finding r = None)
  /\ (forall f, HeuristicResult.finding r = Some f ->
        Finding.pageId f = Dyn.RawPage.id page).
Proof.
  intros R. apply analyze_returned in R.
  destruct R;
    cbn [HeuristicResult.passed HeuristicResult.score HeuristicResult.finding
         HeuristicResult.skipped HeroCTARule.createSkippedResult
         HeroCTARule.createSuccessResult];
    unfold HeroCTARule.maxScore;
    intuition (try discriminate; try congruence; auto);
    match goal with
    | H : Some _ = Some _ |- _ => injection H as <-; reflexivity
    end.
Qed.

Lemma returned_result_invariant_witness :
  exists r : HeuristicResult.t,
    Dyn.analyze 1700000000000 pageWithBareButton = Dyn.Return r
    /\ (HeuristicResult.score r = 0 \/ HeuristicResult.score r = 7
        \/ HeuristicResult.score r = 15)
    /\ (HeuristicResult.passed r = true <-> HeuristicResult.score r = 15)
    /\ (HeuristicResult.skipped r = Some true ->
        HeuristicResult.finding r = None /\ HeuristicResult.score r = 0)
    /\ (HeuristicResult.passed r = true -> HeuristicResult.finding r = None)
    /\ (forall f, HeuristicResult.finding r = Some f ->
          Finding.pageId f = Dyn.RawPage.id pageWithBareButton).
Proof.
  eexists. split; [reflexivity | ].
  apply (returned_result_invariant 1700000000000 pageWithBareButton). reflexivity.
Defined.

(* ================================================================= *)
(** ** Further properties of the finding id *)

Lemma string_of_Z_inj (a b : Z) : string_of_Z a = string_of_Z b -> a = b.
Proof.
  assert (P : forall z, NilZero.int_of_string (string_of_Z z) = Some (Z.to_int z)).
  { intros z. unfold string_of_Z. apply NilZero.isi; destruct z; cbn [Z.to_int];
      try discriminate; intros [= E]; exact (Unsigned.to_uint_nonnil _ E). }
  intros E. apply DecimalZ.to_int_inj.
  pose proof (P a) as Pa. rewrite E, P in Pa. congruence.
Qed.

Lemma append_cancel (s a b : string) : s ++ a = s ++ b -> a = b.
Proof.
  induction s as [ | c s IH ]; cbn [append]; [auto | ].
  intros [= E]. exact (IH E).
Qed.

Lemma dashFree_digits (d : Decimal.uint) : dashFree (NilEmpty.string_of_uint d) = true.
Proof. induction d; cbn [NilEmpty.string_of_uint dashFree]; auto. Qed.

Lemma dashFree_clock (now : Z) : 0 <= now -> dashFree (string_of_Z now) = true.
Proof.
  intros N. unfold string_of_Z. destruct now as [ | p | p ]; [reflexivity | | lia].
  cbn [Z.to_int NilZero.string_of_int]. unfold NilZero.string_of_uint.
  destruct (Pos.to_uint p); try apply dashFree_digits. reflexivity.
Qed.

Lemma dashFree_no_dash (a b : string) : dashFree (a ++ String dash b) = false.
Proof.
  induction a as [ | c a IH ]; cbn [append dashFree].
  - rewrite Ascii.eqb_refl. reflexivity.
  - rewrite IH. apply andb_false_r.
Qed.

Lemma split_at_last_dash (a b d1 d2 : string) :
  dashFree d1 = true -> dashFree d2 = true ->
  a ++ String dash d1 = b ++ String dash d2 -> a = b /\ d1 = d2.
Proof.
  intros F1 F2. revert b.
  induction a as [ | x a IH ]; intros [ | y b ]; cbn [append]; intros E.
  - injection E as E. split; [reflexivity | exact E].
  - injection E as _ E. rewrite E, dashFree_no_dash in F1. discriminate F1.
  - injection E as _ E. rewrite <- E, dashFree_no_dash in F2. discriminate F2.
  - injection E as -> E. destruct (IH b E) as [-> ->]. split; reflexivity.
Qed.

Lemma append_assoc (a b c : string) : (a ++ b) ++ c = a ++ (b ++ c).
Proof.
  induction a as [ | x a IH ]; cbn [append]; [reflexivity | ].
  rewrite IH. reflexivity.
Qed.

Lemma finding_ruleId_cases (now : Z) (page : Page.t) (f : Finding.t) :
  HeuristicResult.finding (HeroCTARule.analyze now page) = Some f ->
  Finding.ruleId f = "hero_cta_missing" \/ Finding.ruleId f = "hero_cta_weak".
Proof.
  by_outcome now page; intros E; try discriminate E; injection E as <-;
    [left | right]; reflexivity.
Qed.

Lemma finding_ruleId_clock_free (now1 now2 : Z) (page : Page.t) (f1 f2 : Finding.t) :
  HeuristicResult.finding (HeroCTARule.analyze now1 page) = Some f1 ->
  HeuristicResult.finding (HeroCTARule.analyze now2 page) = Some f2 ->
  Finding.ruleId f1 = Finding.ruleId f2.
Proof.
  intros F1 F2.
  pose proof (analyze_verdict now1 page) as V1.
  pose proof (analyze_verdict now2 page) as V2.
  cbv zeta in V1, V2. rewrite <- V1, F1, F2 in V2. cbn [option_map] in V2.
  congruence.
Qed.

(** X12: on one page, the id of the finding tells the evaluations apart
    exactly as far as the clock does.  Two evaluations of the same page
    that return findings give them the same id if and only if they read
    the same clock value, so two evaluations within one millisecond
    produce the same id and later ones a different id. *)
Theorem finding_id_follows_the_clock
    (now1 now2 : Z) (page : Page.t) (f1 f2 : Finding.t) :
  HeuristicResult.finding (HeroCTARule.analyze now1 page) = Some f1 ->
  HeuristicResult.finding (HeroCTARule.analyze now2 page) = Some f2 ->
  (Finding.id f1 = Finding.id f2 <-> now1 = now2).
Proof.
  intros F1 F2.
  pose proof (finding_ruleId_clock_free _ _ _ _ _ F1 F2) as R.
  destruct (analyze_finding_identity _ _ _ F1) as [_ I1].
  destruct (analyze_finding_identity _ _ _ F2) as [_ I2].
  rewrite I1, I2, R. split.
  - intros E. do 4 apply append_cancel in E. exact (string_of_Z_inj _ _ E).
  - intros ->. reflexivity.
Qed.

Lemma finding_id_follows_the_clock_witness :
  exists f1 f2 : Finding.t,
    HeuristicResult.finding
      (HeroCTARule.analyze 1700000000000 (testPage "test-page-1" "home" [])) = Some f1
    /\ HeuristicResult.finding
         (HeroCTARule.analyze 1700000000001 (testPage "test-page-1" "home" [])) = Some f2
    /\ Finding.id f1 <> Finding.id f2.
Proof.
  eexists. eexists. split; [reflexivity | ]. split; [reflexivity | ].
  intros E.
  apply (finding_id_follows_the_clock 1700000000000 1700000000001
           (testPage "test-page-1" "home" []) _ _ eq_refl eq_refl) in E.
  discriminate E.
Defined.

(** X13: with a clock that is not negative (as the milliseconds since 1970
    are), the id of a finding determines its ruleId, its page and its
    clock reading: two findings with the same id, of any two pages and
    evaluations, have the same ruleId, come from pages with the same id
    and were produced at the same clock value.  (Page ids may contain
    dashes.) *)
Theorem finding_id_injective
    (now1 now2 : Z) (page1 page2 : Page.t) (f1 f2 : Finding.t) :
  0 <= now1 -> 0 <= now2 ->
  HeuristicResult.finding (HeroCTARule.analyze now1 page1) = Some f1 ->
  HeuristicResult.finding (HeroCTARule.analyze now2 page2) = Some f2 ->
  Finding.id f1 = Finding.id f2 ->
  Finding.ruleId f1 = Finding.ruleId f2
  /\ Page.id page1 = Page.id page2
  /\ now1 = now2.
Proof.
  intros N1 N2 F1 F2 E.
  destruct (analyze_finding_identity _ _ _ F1) as [_ I1].
  destruct (analyze_finding_identity _ _ _ F2) as [_ I2].
  rewrite I1, I2 in E.
  change (?r ++ "-" ++ ?p ++ "-" ++ ?s) with (r ++ String dash (p ++ String dash s)) in E.
  assert (E' : (Finding.ruleId f1 ++ String dash (Page.id page1))
               ++ String dash (string_of_Z now1)
               = (Finding.ruleId f2 ++ String dash (Page.id page2))
                 ++ String dash (string_of_Z now2)).
  { rewrite !append_assoc. cbn [append]. exact E. }
  apply split_at_last_dash in E'; try (apply dashFree_clock; assumption).
  destruct E' as [P S]. apply string_of_Z_inj in S.
  destruct (finding_ruleId_cases _ _ _ F1) as [R1 | R1];
    destruct (finding_ruleId_cases _ _ _ F2) as [R2 | R2];
    rewrite R1, R2 in P |- *; cbn [append] in P;
    try discriminate P;
    (split; [reflexivity | split; [ | exact S] ]);
    injection P as P; exact P.
Qed.

Lemma finding_id_injective_witness :
  exists f1 f2 : Finding.t,
    HeuristicResult.finding
      (HeroCTARule.analyze 1700000000000 (testPage "page-a" "home" [])) = Some f1
    /\ HeuristicResult.finding
         (HeroCTARule.analyze 1700000000000 (testPage "page-a-1" "home" [])) = Some f2
    /\ Finding.id f1 <> Finding.id f2.
Proof.
  eexists. eexists. split; [reflexivity | ]. split; [reflexivity | ].
  intros E.
  destruct (finding_id_injective 1700000000000 1700000000000
              (testPage "page-a" "home" []) (testPage "page-a-1" "home" [])
              _ _ ltac:(discriminate) ltac:(discriminate) eq_refl eq_refl E)
    as (_ & P & _).
  discriminate P.
Defined.
